(** * Verification of python-worker/worker.py

    A shallow embedding of the queue worker: the [before_send] sampling
    filter, the trace-header parsing of [process_message], the body of
    [process_message] and one iteration of the polling loop of [main].
    Python dictionaries are stdpp [gmap string pyval]; the calls into
    [sentry_sdk], [requests] and [time] are effects answered by an
    external environment. *)

From Stdlib Require Import ZArith Ascii.
From stdpp Require Import base gmap strings list.
Open Scope string_scope.
Set Warnings "-register-all".

(** ** Python values *)

(** The JSON-like values that travel in events and messages. Nested
    dictionaries are association lists; top-level dictionaries are
    [gmap]s. *)
Inductive pyval :=
| PNone
| PBool (b : bool)
| PInt (z : Z)
| PStr (s : string)
| PList (l : list pyval)
| PDict (d : list (string * pyval)).

Abbreviation pydict := (gmap string pyval).

(** [bool(v)] *)
Definition truthy (v : pyval) : bool :=
  match v with
  | PNone => false
  | PBool b => b
  | PInt z => negb (Z.eqb z 0)
  | PStr s => negb (String.eqb s "")
  | PList l => negb (Nat.eqb (length l) 0)
  | PDict d => negb (Nat.eqb (length d) 0)
  end.

(** [d.get(k)] : [None] when the key is missing. *)
Definition dget (d : pydict) (k : string) : pyval :=
  match d !! k with Some v => v | None => PNone end.

(** [d.get(k, default)] *)
Definition dget_default (d : pydict) (k : string) (dflt : pyval) : pyval :=
  match d !! k with Some v => v | None => dflt end.

(** [k in d] *)
Definition dmem (d : pydict) (k : string) : bool :=
  match d !! k with Some _ => true | None => false end.

(** [v == 'transaction'] for an arbitrary value: only a string can be equal. *)
Definition eq_str (v : pyval) (s : string) : bool :=
  match v with PStr s' => String.eqb s' s | _ => false end.

(** [v is not True] : identity with the singleton [True]. *)
Definition is_not_True (v : pyval) : bool :=
  match v with PBool true => false | _ => true end.

(** ** before_send (lines 20-41)

    The hook may return the event (to send it) or [None] (to drop it);
    the return type is therefore [option pydict]. The [print] calls are
    left out: they only write to the console. *)
Definition is_transaction_event (event : pydict) : bool :=
  eq_str (dget event "type") "transaction"
  || dmem event "transaction" || dmem event "spans".

Definition before_send (event : pydict) (hint : pyval) : option pydict :=
  let event_type := dget event "type" in
  if eq_str event_type "transaction" || dmem event "transaction" || dmem event "spans"
  then
    if negb (dmem event "sampled") || is_not_True (dget event "sampled")
    then Some (<["sampled" := PBool true]> event)
    else Some event
  else Some event.

(** ** Trace-header parsing (lines 87-98) *)

(** [s.split('-')] : Python's split on a one-character separator; it
    always returns at least one piece. *)
Fixpoint split_dash (s : string) : list string :=
  match s with
  | EmptyString => [""]
  | String c rest =>
      if Ascii.eqb c "-"%char then "" :: split_dash rest
      else match split_dash rest with
           | h :: t => String c h :: t
           | [] => [String c ""]
           end
  end.

(** [parts[i] if len(parts) > i else None] *)
Definition seg (parts : list string) (i : nat) : option string :=
  if Nat.ltb i (length parts) then nth_error parts i else None.

Record trace_ctx := {
  trace_id : option string;
  parent_span_id : option string;
  trace_sampled_flag : option string;
  trace_sampled : bool
}.

(** Lines 87-98: [trace_sampled = trace_sampled_flag == '1'], where a
    missing flag is [None] and [None == '1'] is [False]. *)
Definition parse_sentry_trace (sentry_trace : string) : trace_ctx :=
  let trace_parts := split_dash sentry_trace in
  let tid := seg trace_parts 0 in
  let psid := seg trace_parts 1 in
  let flag := seg trace_parts 2 in
  {| trace_id := tid;
     parent_span_id := psid;
     trace_sampled_flag := flag;
     trace_sampled := match flag with Some f => String.eqb f "1" | None => false end |}.

(** Whether a string contains the separator. *)
Fixpoint has_dash (s : string) : bool :=
  match s with
  | EmptyString => false
  | String c rest => Ascii.eqb c "-"%char || has_dash rest
  end.

(** ** Effects of process_message and main

    Faults raised by library calls are Python [Exception] instances;
    [exc_request] marks the subclasses of
    [requests.exceptions.RequestException]. The terminal interrupt
    ([KeyboardInterrupt]) is the external stop signal of the loop and is
    represented by the number of loop iterations run, see [main_loop]. *)
Record exn := { exc_type : string; exc_msg : string; exc_request : bool }.

(** Lookup in a nested Python dict (distinct keys). *)
Fixpoint pyget_default (d : list (string * pyval)) (k : string) (dflt : pyval) : pyval :=
  match d with
  | [] => dflt
  | (k', v) :: d' => if String.eqb k' k then v else pyget_default d' k dflt
  end.

Definition pyget (d : list (string * pyval)) (k : string) : pyval :=
  pyget_default d k PNone.

(** The calls the worker makes into [sentry_sdk], [requests], [time]
    and the console. *)
Inductive effect :=
| ELog (msg : string)
| ESleep (ms : Z)
| ETime
| EContinueTrace (headers : list (string * pyval))
| EStartTransaction (envelope : pyval)
| ETxnEnter
| ETxnExit (exc : option exn)
| EStartSpan (op description : string)
| ESpanEnter
| ESpanExit (exc : option exn)
| ESetTag (key : string) (value : pyval)
| EAttr (name : string)
| EFlush (timeout_ms : Z)
| ECaptureException (e : exn)
| EPost (url : string) (body : list (string * pyval)) (timeout_s : Z)
| EJson.

Inductive res (A : Type) := Ok (a : A) | Err (e : exn).
Arguments Ok {A} a.
Arguments Err {A} e.

(** A computation reads and extends the list of effects performed so far. *)
Definition M (A : Type) := list effect -> list effect * res A.

Definition ret {A} (a : A) : M A := fun h => (h, Ok a).
Definition raise {A} (e : exn) : M A := fun h => (h, Err e).
Definition bind {A B} (m : M A) (k : A -> M B) : M B :=
  fun h => match m h with
           | (h', Ok a) => k a h'
           | (h', Err e) => (h', Err e)
           end.

Notation "x <- m ;; k" := (bind m (fun x => k)) (at level 100, m at next level, right associativity).
Notation "m ;;; k" := (bind m (fun _ => k)) (at level 100, right associativity).

(** [try: m except <p>: handler] *)
Definition try_except {A} (p : exn -> bool) (m : M A) (handler : exn -> M A) : M A :=
  fun h => match m h with
           | (h', Err e) => if p e then handler e h' else (h', Err e)
           | r => r
           end.

(** [v == n] for an integer [n]. *)
Definition eq_int (v : pyval) (n : Z) : bool :=
  match v with PInt z => Z.eqb z n | _ => false end.

(** [except Exception]: every modelled fault. *)
Definition is_Exception (e : exn) : bool := true.
(** [except requests.exceptions.RequestException] *)
Definition is_RequestException (e : exn) : bool := exc_request e.

Definition attribute_error (what : string) : exn :=
  {| exc_type := "AttributeError"; exc_msg := what; exc_request := false |}.
Definition type_error (what : string) : exn :=
  {| exc_type := "TypeError"; exc_msg := what; exc_request := false |}.

Section Worker.

(** The environment: [answer] is the value a call returns, [fault] the
    exception a fallible call raises instead; both may depend on what
    happened before. *)
Variable answer : list effect -> effect -> pyval.
Variable fault : list effect -> effect -> option exn.

(** A call that may raise. *)
Definition call (ef : effect) : M pyval :=
  fun h => match fault h ef with
           | Some e => ((h ++ [ef])%list, Err e)
           | None => ((h ++ [ef])%list, Ok (answer h ef))
           end.

(** A call that does not raise: [print], [time.sleep], [time.time],
    attribute reads guarded by [hasattr], and [sentry_sdk.flush] and
    [sentry_sdk.capture_exception], which report their own failures
    (timeout, transport error) in their return value and log. *)
Definition call_total (ef : effect) : M pyval :=
  fun h => ((h ++ [ef])%list, Ok (answer h ef)).

Definition log (msg : string) : M unit := call_total (ELog msg) ;;; ret tt.
Definition sleep (ms : Z) : M unit := call_total (ESleep ms) ;;; ret tt.

(** [with cm: body]: [__enter__], then the body, then [__exit__] with the
    body's exception; a true result of [__exit__] suppresses it, and the
    statement then completes without a value ([None]). *)
Definition with_cm {A} (enter : effect) (exit : option exn -> effect) (body : M A)
  : M (option A) :=
  call enter ;;;
  fun h => match body h with
           | (h1, Ok a) =>
               match call (exit None) h1 with
               | (h2, Ok _) => (h2, Ok (Some a))
               | (h2, Err e2) => (h2, Err e2)
               end
           | (h1, Err e) =>
               match call (exit (Some e)) h1 with
               | (h2, Ok v) => if truthy v then (h2, Ok None) else (h2, Err e)
               | (h2, Err e2) => (h2, Err e2)
               end
           end.

(** ** process_message (lines 57-171)

    The message is whatever the queue returned; [message.get] raises
    [AttributeError] when it is not a dict, and so does
    [sentry_trace.split] when the trace field is truthy but not a string.
    The console output of the parsing (lines 71-103) and the span
    attributes printed at lines 109 and 116-120 are left out: they
    neither raise nor change the result. *)
Definition process_message (message : pyval) : M pyval :=
  match message with
  | PDict md =>
      let sentry_trace := pyget md "sentryTrace" in
      let baggage := pyget md "baggage" in
      if truthy sentry_trace then
        match sentry_trace with
        | PStr st =>
            let headers :=
              (("sentry-trace", PStr st)
                 :: (if truthy baggage then [("baggage", baggage)] else []))%list in
            r <- try_except is_Exception
                   (trace_envelope <- call (EContinueTrace headers) ;;
                    _ <- call (EStartTransaction trace_envelope) ;;
                    with_cm ETxnEnter ETxnExit
                      (sleep 500 ;;;
                       call (EStartSpan "gpu.inference" "athena-turbo") ;;;
                       with_cm ESpanEnter ESpanExit (sleep 300) ;;;
                       log "GPU work completed" ;;;
                       call (ESetTag "task.type" (pyget_default md "taskType" (PStr "unknown"))) ;;;
                       call (ESetTag "processed.by" (PStr "python-worker")) ;;;
                       tid <- call_total (EAttr "trace_id") ;;
                       sid <- call_total (EAttr "span_id") ;;
                       psid <- call_total (EAttr "parent_span_id") ;;
                       let span_info :=
                         PDict [("trace_id", tid); ("span_id", sid); ("parent_span_id", psid)] in
                       log "Flushing Sentry..." ;;;
                       flushed <- call_total (EFlush 2000) ;;
                       log "Sentry flush result" ;;;
                       now <- call_total ETime ;;
                       ret (PDict [("success", PBool true);
                                   ("processedBy", PStr "python-worker");
                                   ("processedAt", now);
                                   ("span", span_info)])))
                   (fun e => log "ERROR in continue_trace" ;;; raise e) ;;
            (* a suppressed exception falls off the end: [None] *)
            match r with Some v => ret v | None => ret PNone end
        | _ => raise (attribute_error "'split'")
        end
      else
        log "WARNING: No sentry trace found in message!" ;;;
        sleep 500 ;;;
        now <- call_total ETime ;;
        ret (PDict [("success", PBool true);
                    ("processedBy", PStr "python-worker");
                    ("processedAt", now);
                    ("warning", PStr "no_trace_context")])
  | _ => raise (attribute_error "'get'")
  end.

(** ** main (lines 174-212) *)

(** The body of the [for message in messages] loop (lines 196-201). *)
Definition handle_message (message : pyval) : M unit :=
  try_except is_Exception
    (_ <- process_message message ;; log "Message processed")
    (fun e => log "Error processing message" ;;;
              call_total (ECaptureException e) ;;; ret tt).

Fixpoint for_each (f : pyval -> M unit) (l : list pyval) : M unit :=
  match l with
  | [] => ret tt
  | x :: l' => f x ;;; for_each f l'
  end.

(** What [for x in v] iterates over; [None] where Python raises
    [TypeError]. *)
Definition iter_values (v : pyval) : option (list pyval) :=
  match v with
  | PList l => Some l
  | PDict d => Some (map (fun kv => PStr (fst kv)) d)
  | PStr s => Some (map (fun c => PStr (String c EmptyString)) (String.list_ascii_of_string s))
  | _ => None
  end.

(** [requests.post(f"{queue_api_url}/queue/receive", json=..., timeout=5)] *)
Definition poll_request (queue_api_url : string) : effect :=
  EPost (queue_api_url ++ "/queue/receive")
        [("queueName", PStr "python-worker-queue"); ("maxMessages", PInt 1)] 5.

(** The body of the inner [try] of [while True] (lines 185-203). The
    answer to [EPost] is the response's [status_code]; [EJson] is
    [response.json()]. *)
Definition poll_body (queue_api_url : string) : M unit :=
  response <- call (poll_request queue_api_url) ;;
  if eq_int response 200 then
    data <- call EJson ;;
    match data with
    | PDict d =>
        match iter_values (pyget_default d "messages" (PList [])) with
        | Some messages => for_each handle_message messages
        | None => raise (type_error "object is not iterable")
        end
    | _ => raise (attribute_error "'get'")
    end
  else log "Queue API returned status".

(** One iteration of [while True] (lines 183-209). *)
Definition poll_iteration (queue_api_url : string) : M unit :=
  try_except is_RequestException (poll_body queue_api_url)
    (fun e => log "Error polling queue") ;;;
  sleep 1000.

(** [main] until the external interrupt, which arrives after [n]
    iterations; an exception that escapes an iteration ends the loop. *)
Fixpoint main_loop (queue_api_url : string) (n : nat) : M unit :=
  match n with
  | O => ret tt
  | S n' => poll_iteration queue_api_url ;;; main_loop queue_api_url n'
  end.

End Worker.

(** ** Concrete environments *)

Definition demo_message : pyval :=
  PDict [("MessageId", PStr "m1"); ("taskType", PStr "infer"); ("sentryTrace", PStr "abc-def-1")].

Definition demo_untraced : list (string * pyval) :=
  [("MessageId", PStr "m2"); ("taskType", PStr "infer")].

(** A queue that returns [demo_message]; [time.time()] is 42. *)
Definition demo_answer (h : list effect) (ef : effect) : pyval :=
  match ef with
  | EPost _ _ _ => PInt 200
  | EJson => PDict [("messages", PList [demo_message])]
  | ETime => PInt 42
  | _ => PNone
  end.

Definition no_fault (h : list effect) (ef : effect) : option exn := None.

Definition runtime_error : exn :=
  {| exc_type := "RuntimeError"; exc_msg := "span failed"; exc_request := false |}.

(** Entering the child span raises. *)
Definition span_enter_fault (h : list effect) (ef : effect) : option exn :=
  match ef with ESpanEnter => Some runtime_error | _ => None end.

Definition connection_error : exn :=
  {| exc_type := "ConnectionError"; exc_msg := "Connection refused"; exc_request := true |}.

(** The queue endpoint is unreachable. *)
Definition queue_down_fault (h : list effect) (ef : effect) : option exn :=
  match ef with EPost _ _ _ => Some connection_error | _ => None end.

(** The effects of the traced path of [process_message] when it runs to
    its [return]. *)
Definition traced_path (headers : list (string * pyval)) (env : pyval) (task : pyval)
  : list effect :=
  [EContinueTrace headers; EStartTransaction env; ETxnEnter; ESleep 500;
   EStartSpan "gpu.inference" "athena-turbo"; ESpanEnter; ESleep 300; ESpanExit None;
   ELog "GPU work completed";
   ESetTag "task.type" task; ESetTag "processed.by" (PStr "python-worker");
   EAttr "trace_id"; EAttr "span_id"; EAttr "parent_span_id";
   ELog "Flushing Sentry..."; EFlush 2000; ELog "Sentry flush result"; ETime;
   ETxnExit None].

Definition trace_headers (st : string) (baggage : pyval) : list (string * pyval) :=
  (("sentry-trace", PStr st)
     :: (if truthy baggage then [("baggage", baggage)] else []))%list.

(** Reads a trace left to right and checks that every [set_tag] comes
    after [time.sleep(0.5)], [time.sleep(0.3)] and a normal exit of the
    child span; the flags record which of the three have been seen. *)
Fixpoint tags_after_work (w5 w3 se : bool) (l : list effect) : bool :=
  match l with
  | [] => true
  | ef :: l' =>
      match ef with
      | ESetTag _ _ => w5 && w3 && se && tags_after_work w5 w3 se l'
      | ESleep z =>
          if Z.eqb z 500 then tags_after_work true w3 se l'
          else if Z.eqb z 300 then tags_after_work w5 true se l'
          else tags_after_work w5 w3 se l'
      | ESpanExit None => tags_after_work w5 w3 true l'
      | _ => tags_after_work w5 w3 se l'
      end
  end.

(** The environment [answer] with [sentry_sdk.flush] returning [v]. *)
Definition with_flush (answer : list effect -> effect -> pyval) (v : pyval)
  : list effect -> effect -> pyval :=
  fun h ef => match ef with EFlush _ => v | _ => answer h ef end.

(** The result of [process_message demo_answer no_fault demo_message []]. *)
Definition demo_result : pyval :=
  PDict [("success", PBool true); ("processedBy", PStr "python-worker");
         ("processedAt", PInt 42);
         ("span", PDict [("trace_id", PNone); ("span_id", PNone); ("parent_span_id", PNone)])].

(** ["-".join(parts)] *)
Fixpoint join_dash (parts : list string) : string :=
  match parts with
  | [] => ""
  | [x] => x
  | x :: parts' => x ++ "-" ++ join_dash parts'
  end.

(** Number of separators in a string. *)
Fixpoint count_dash (s : string) : nat :=
  match s with
  | EmptyString => 0
  | String c rest => (if Ascii.eqb c "-"%char then 1 else 0) + count_dash rest
  end.

(** A queue whose 200 response carries a JSON array instead of an object. *)
Definition array_body_answer (h : list effect) (ef : effect) : pyval :=
  match ef with
  | EPost _ _ _ => PInt 200
  | EJson => PList []
  | _ => PNone
  end.

(** A queue with no message for this worker. *)
Definition empty_queue_answer (h : list effect) (ef : effect) : pyval :=
  match ef with
  | EPost _ _ _ => PInt 200
  | EJson => PDict []
  | _ => PNone
  end.

(** As [demo_answer], with a transaction whose [__exit__] returns [True]. *)
Definition suppressing_answer (h : list effect) (ef : effect) : pyval :=
  match ef with
  | ETxnExit _ => PBool true
  | _ => demo_answer h ef
  end.

(** [sentry_sdk.continue_trace] raises. *)
Definition continue_trace_fault (h : list effect) (ef : effect) : option exn :=
  match ef with EContinueTrace _ => Some runtime_error | _ => None end.

Definition baggage_message : list (string * pyval) :=
  [("MessageId", PStr "m3"); ("sentryTrace", PStr "abc-def-1"); ("baggage", PStr "sentry-env=dev")].

(** ** Tests *)

Example before_send_test1 :
  before_send {[ "type" := PStr "transaction" ]} PNone
  = Some (<["sampled" := PBool true]> {[ "type" := PStr "transaction" ]}).
Proof. reflexivity. Qed.

Example before_send_test2 :
  before_send {[ "type" := PStr "error" ]} PNone = Some {[ "type" := PStr "error" ]}.
Proof. reflexivity. Qed.

Example parse_test1 :
  parse_sentry_trace "abc-def-1"
  = {| trace_id := Some "abc"; parent_span_id := Some "def";
       trace_sampled_flag := Some "1"; trace_sampled := true |}.
Proof. reflexivity. Qed.

Example parse_test2 :
  parse_sentry_trace "abc"
  = {| trace_id := Some "abc"; parent_span_id := None;
       trace_sampled_flag := None; trace_sampled := false |}.
Proof. reflexivity. Qed.

Example parse_test3 : split_dash "-a--" = [""; "a"; ""; ""].
Proof. reflexivity. Qed.

(** ** Claims about before_send *)

(** C1: for a trace-bearing event whose [sampled] is missing or not
    exactly [True], the result has [sampled = True]; a trace-bearing event
    already sampled is returned unchanged; a non-trace-bearing event is
    returned unchanged. *)
Theorem before_send_spec (event : pydict) (hint : pyval) :
  (is_transaction_event event = true ->
     (event !! "sampled" = None \/ is_not_True (dget event "sampled") = true) ->
     exists ev', before_send event hint = Some ev' /\ ev' !! "sampled" = Some (PBool true))
  /\ (is_transaction_event event = true ->
      event !! "sampled" = Some (PBool true) ->
      before_send event hint = Some event)
  /\ (is_transaction_event event = false ->
      before_send event hint = Some event).
Proof.
  unfold is_transaction_event, before_send, dmem, dget, is_not_True.
  split; [|split].
  - intros Htr Hs. rewrite Htr. eexists; split; [|apply lookup_insert_eq].
    destruct Hs as [Hs|Hs].
    + rewrite Hs. reflexivity.
    + rewrite Hs, orb_true_r. reflexivity.
  - intros Htr Hs. rewrite Htr, Hs. reflexivity.
  - intros Htr. rewrite Htr. reflexivity.
Qed.

(** C10: [before_send] never returns [None]: the event it returns is the
    event it was given, at most with [sampled] set to [True], so no event
    is dropped. *)
Theorem before_send_never_drops (event : pydict) (hint : pyval) :
  exists ev', before_send event hint = Some ev'
  /\ forall k, k <> "sampled" -> ev' !! k = event !! k.
Proof.
  unfold before_send.
  destruct (_ || _ || _); [destruct (_ || _)|];
    eexists; split; try reflexivity; intros k Hk; auto.
  rewrite lookup_insert_ne; congruence.
Qed.

(** ** Claims about trace-header parsing *)

Lemma split_dash_no_dash (s : string) :
  has_dash s = false -> split_dash s = [s].
Proof.
  induction s as [|c s IH]; simpl; [reflexivity|].
  intros H. apply orb_false_iff in H as [Hc Hs].
  rewrite Hc, IH by exact Hs. reflexivity.
Qed.

Lemma split_dash_app (a b : string) :
  has_dash a = false -> split_dash (a ++ String "-"%char b) = a :: split_dash b.
Proof.
  induction a as [|c a IH]; simpl; [reflexivity|].
  intros H. apply orb_false_iff in H as [Hc Ha].
  rewrite Hc, IH by exact Ha. reflexivity.
Qed.

Lemma split_dash_nonempty (s : string) : split_dash s <> [].
Proof.
  induction s as [|c s IH]; simpl; [discriminate|].
  destruct (Ascii.eqb c "-"%char); [discriminate|].
  destruct (split_dash s); discriminate.
Qed.

(** C2: for a header [T-P-S] of three dash-free segments, parsing gives
    trace id [T], parent span id [P] and sampled exactly when [S] is the
    literal ["1"]; for a single dash-free segment [T], parent span id and
    flag are absent and sampled is false; and for every string parsing
    yields a value (it cannot raise) with a trace id always present. *)
Theorem parse_sentry_trace_spec :
  (forall T P S : string,
     has_dash T = false -> has_dash P = false -> has_dash S = false ->
     parse_sentry_trace (T ++ "-" ++ P ++ "-" ++ S)
     = {| trace_id := Some T; parent_span_id := Some P;
          trace_sampled_flag := Some S; trace_sampled := String.eqb S "1" |})
  /\ (forall T : string, has_dash T = false ->
       parse_sentry_trace T
       = {| trace_id := Some T; parent_span_id := None;
            trace_sampled_flag := None; trace_sampled := false |})
  /\ (forall s : string, exists T, trace_id (parse_sentry_trace s) = Some T).
Proof.
  split; [|split].
  - intros T P S HT HP HS. unfold parse_sentry_trace.
    change ("-" ++ P ++ "-" ++ S) with (String "-"%char (P ++ String "-"%char S)).
    rewrite split_dash_app by exact HT.
    rewrite split_dash_app by exact HP.
    rewrite split_dash_no_dash by exact HS.
    reflexivity.
  - intros T HT. unfold parse_sentry_trace.
    rewrite split_dash_no_dash by exact HT. reflexivity.
  - intros s. unfold parse_sentry_trace, seg. simpl.
    pose proof (split_dash_nonempty s) as Hne.
    destruct (split_dash s) as [|x xs]; [congruence|].
    exists x. reflexivity.
Qed.

Lemma parse_sentry_trace_spec_witness :
  has_dash "abc" = false /\ has_dash "def" = false /\ has_dash "0" = false /\
  parse_sentry_trace ("abc" ++ "-" ++ "def" ++ "-" ++ "0")
  = {| trace_id := Some "abc"; parent_span_id := Some "def";
       trace_sampled_flag := Some "0"; trace_sampled := String.eqb "0" "1" |}.
Proof.
  split; [reflexivity|]. split; [reflexivity|]. split; [reflexivity|].
  apply (proj1 parse_sentry_trace_spec); reflexivity.
Defined.

(** ** process_message and the loop *)

Ltac split_calls :=
  repeat (simpl in *;
          match goal with
          | H : context [match ?f ?a ?b with Some _ => _ | None => _ end] |- _ =>
              destruct (f a b) eqn:?
          | H : context [if truthy ?v then _ else _] |- _ =>
              destruct (truthy v) eqn:?
          end).

Lemma truthy_str (st : string) : st <> "" -> truthy (PStr st) = true.
Proof.
  intros Hne. simpl. destruct (String.eqb_spec st ""); [contradiction|reflexivity].
Qed.

Lemma process_message_traced_normal answer fault md st h h' v :
  pyget md "sentryTrace" = PStr st -> st <> "" ->
  process_message answer fault (PDict md) h = (h', Ok v) -> v <> PNone ->
  exists env now span_info,
    h' = (h ++ traced_path (trace_headers st (pyget md "baggage")) env
                 (pyget_default md "taskType" (PStr "unknown")))%list
    /\ v = PDict [("success", PBool true); ("processedBy", PStr "python-worker");
                  ("processedAt", now); ("span", span_info)].
Proof.
  intros Hst Hne Hrun Hv.
  unfold process_message in Hrun. rewrite Hst, (truthy_str st Hne) in Hrun.
  unfold trace_headers, traced_path.
  unfold log, sleep, with_cm, try_except, bind, call, call_total, ret, raise in Hrun.
  split_calls; inversion Hrun; subst; try congruence.
  all: do 3 eexists; split; [|reflexivity].
  all: rewrite <- !app_assoc; reflexivity.
Qed.

Lemma tags_after_work_sound w5 w3 se pre k x post :
  tags_after_work w5 w3 se (pre ++ ESetTag k x :: post)%list = true ->
  (w5 = true \/ In (ESleep 500) pre)
  /\ (w3 = true \/ In (ESleep 300) pre)
  /\ (se = true \/ In (ESpanExit None) pre).
Proof.
  revert w5 w3 se.
  induction pre as [|ef pre IH]; intros w5 w3 se Hc; simpl in Hc.
  - apply andb_true_iff in Hc as [Hc _].
    apply andb_true_iff in Hc as [Hc Hse].
    apply andb_true_iff in Hc as [Hw5 Hw3]. auto.
  - destruct ef; try (apply andb_true_iff in Hc as [_ Hc]);
      try (destruct (IH _ _ _ Hc) as (A & B & C); simpl; tauto).
    + destruct (Z.eqb_spec ms 500) as [->|H5];
        [destruct (IH _ _ _ Hc) as (A & B & C); simpl; intuition congruence|].
      destruct (Z.eqb_spec ms 300) as [->|H3];
        destruct (IH _ _ _ Hc) as (A & B & C); simpl; intuition congruence.
    + destruct exc; destruct (IH _ _ _ Hc) as (A & B & C); simpl; intuition congruence.
Qed.

Lemma process_message_traced_tags answer fault md st h h' r :
  pyget md "sentryTrace" = PStr st -> st <> "" ->
  process_message answer fault (PDict md) h = (h', r) ->
  exists suf, h' = (h ++ suf)%list /\ tags_after_work false false false suf = true.
Proof.
  intros Hst Hne Hrun.
  unfold process_message in Hrun. rewrite Hst, (truthy_str st Hne) in Hrun.
  unfold log, sleep, with_cm, try_except, bind, call, call_total, ret, raise in Hrun.
  split_calls; inversion Hrun; subst.
  all: eexists; split; [rewrite <- !app_assoc; reflexivity | reflexivity].
Qed.

Lemma process_message_traced_none answer fault md st h h' :
  pyget md "sentryTrace" = PStr st -> st <> "" ->
  process_message answer fault (PDict md) h = (h', Ok PNone) ->
  exists pre e,
    h' = (pre ++ [ETxnExit (Some e)])%list
    /\ fault pre (ETxnExit (Some e)) = None
    /\ truthy (answer pre (ETxnExit (Some e))) = true.
Proof.
  intros Hst Hne Hrun.
  unfold process_message in Hrun. rewrite Hst, (truthy_str st Hne) in Hrun.
  unfold log, sleep, with_cm, try_except, bind, call, call_total, ret, raise in Hrun.
  split_calls; inversion Hrun; subst; try congruence.
  all: do 2 eexists; split; [reflexivity|split; eassumption].
Qed.

(** ** Claims about process_message and the loop *)

(** C3: a message whose [sentryTrace] is absent (or [None]) or empty is
    processed without raising, whatever the environment does, and the
    result is [success = True], [processedBy = "python-worker"] with the
    warning ["no_trace_context"]. *)
Theorem process_message_no_trace answer fault (md : list (string * pyval)) h :
  pyget md "sentryTrace" = PNone \/ pyget md "sentryTrace" = PStr "" ->
  exists h' now,
    process_message answer fault (PDict md) h
    = (h', Ok (PDict [("success", PBool true); ("processedBy", PStr "python-worker");
                      ("processedAt", now); ("warning", PStr "no_trace_context")])).
Proof.
  intros Hst. unfold process_message.
  destruct Hst as [Hst|Hst]; rewrite Hst; simpl; eexists; eexists; reflexivity.
Qed.

(** C4: the handler of one message never lets a fault out; a fault of
    [process_message] is captured with [capture_exception] and the
    handler returns normally; the loop over the messages therefore never
    fails and each message is handled from the state the previous one
    left; and an iteration that received a list of messages ends
    normally with its one-second sleep, after which the next iteration
    polls again. *)
Theorem handle_message_isolates_faults answer fault :
  (forall m h, snd (handle_message answer fault m h) = Ok tt)
  /\ (forall m h h' e,
        process_message answer fault m h = (h', Err e) ->
        handle_message answer fault m h
        = ((h' ++ [ELog "Error processing message"; ECaptureException e])%list, Ok tt))
  /\ (forall ms h, snd (for_each (handle_message answer fault) ms h) = Ok tt)
  /\ (forall m ms h,
        for_each (handle_message answer fault) (m :: ms) h
        = for_each (handle_message answer fault) ms (fst (handle_message answer fault m h)))
  /\ (forall url h d ms,
        fault h (poll_request url) = None ->
        answer h (poll_request url) = PInt 200 ->
        fault (h ++ [poll_request url])%list EJson = None ->
        answer (h ++ [poll_request url])%list EJson = PDict d ->
        pyget_default d "messages" (PList []) = PList ms ->
        exists h', poll_iteration answer fault url h = ((h' ++ [ESleep 1000])%list, Ok tt))
  /\ (forall url n h h1,
        poll_iteration answer fault url h = (h1, Ok tt) ->
        main_loop answer fault url (S n) h = main_loop answer fault url n h1).
Proof.
  assert (Hh : forall m h, snd (handle_message answer fault m h) = Ok tt).
  { intros m h. unfold handle_message, log, try_except, bind, call_total, ret.
    destruct (process_message answer fault m h) as [h1 [a|e]]; reflexivity. }
  assert (Hf : forall ms h, snd (for_each (handle_message answer fault) ms h) = Ok tt).
  { induction ms as [|m ms IH]; intros h; [reflexivity|].
    simpl. unfold bind at 1.
    destruct (handle_message answer fault m h) as [h1 r] eqn:E.
    pose proof (Hh m h) as Hm. rewrite E in Hm. simpl in Hm. subst r. apply IH. }
  split; [exact Hh|]. split.
  { intros m h h' e He. unfold handle_message, log, try_except, bind, call_total, ret.
    rewrite He. simpl. rewrite <- app_assoc. reflexivity. }
  split; [exact Hf|]. split.
  { intros m ms h. simpl. unfold bind at 1.
    destruct (handle_message answer fault m h) as [h1 r] eqn:E.
    pose proof (Hh m h) as Hm. rewrite E in Hm. simpl in Hm. subst r. reflexivity. }
  split.
  { intros url h d ms H1 H2 H3 H4 H5.
    unfold poll_iteration, poll_body, try_except, bind at 1, sleep, call_total.
    unfold bind at 1. unfold call at 1. rewrite H1, H2. simpl.
    unfold bind at 1, call. rewrite H3, H4, H5. simpl.
    pose proof (Hf ms ((h ++ [poll_request url]) ++ [EJson])%list) as Hm.
    destruct (for_each (handle_message answer fault) ms _) as [h2 r].
    simpl in Hm. subst r. exists h2. reflexivity. }
  { intros url n h h1 Hp. simpl. unfold bind at 1. rewrite Hp. reflexivity. }
Qed.

(** C5 (as the code does it): after a poll that raised a
    [RequestException], or that answered a status other than 200, the
    iteration logs, does not raise, and sleeps 1000 ms, the same
    one-second sleep as every iteration, before the next poll. *)
Theorem poll_iteration_failed_poll answer fault url h :
  ((exists e, fault h (poll_request url) = Some e /\ exc_request e = true) ->
   poll_iteration answer fault url h
   = ((h ++ [poll_request url; ELog "Error polling queue"; ESleep 1000])%list, Ok tt))
  /\ (fault h (poll_request url) = None ->
      eq_int (answer h (poll_request url)) 200 = false ->
      poll_iteration answer fault url h
      = ((h ++ [poll_request url; ELog "Queue API returned status"; ESleep 1000])%list, Ok tt)).
Proof.
  split.
  - intros [e [He Hr]].
    unfold poll_iteration, poll_body, log, sleep, try_except, bind, call, call_total, ret.
    rewrite He. simpl. unfold is_RequestException. rewrite Hr.
    rewrite <- !app_assoc. reflexivity.
  - intros He Hs.
    unfold poll_iteration, poll_body, log, sleep, try_except, bind, call, call_total, ret.
    rewrite He. simpl. rewrite Hs.
    rewrite <- !app_assoc. reflexivity.
Qed.

(** C6 (as the code does it): when traced processing completes normally,
    [task.type] (from [message.get('taskType', 'unknown')]) and
    [processed.by = "python-worker"] are set on the transaction right
    after the simulated work, the child span's normal exit and the
    "GPU work completed" line, and before the transaction is closed. On
    every run of the traced path, whatever it raises, a [set_tag] only
    ever comes after [time.sleep(0.5)], [time.sleep(0.3)] and the normal
    exit of the child span; so a run in which the child span did not
    exit normally (a fault raised before or inside it) sets neither tag,
    also when the transaction's [__exit__] then closes the root span. *)
Theorem process_message_tags_normal answer fault md st h :
  pyget md "sentryTrace" = PStr st -> st <> "" ->
  (forall v,
     snd (process_message answer fault (PDict md) h) = Ok v -> v <> PNone ->
     exists pre mid,
       fst (process_message answer fault (PDict md) h)
       = (pre ++ [ESleep 300; ESpanExit None; ELog "GPU work completed";
                  ESetTag "task.type" (pyget_default md "taskType" (PStr "unknown"));
                  ESetTag "processed.by" (PStr "python-worker")]
              ++ mid ++ [ETxnExit None])%list)
  /\ exists suf,
       fst (process_message answer fault (PDict md) h) = (h ++ suf)%list
       /\ (forall k x pre post,
             suf = (pre ++ ESetTag k x :: post)%list ->
             In (ESleep 500) pre /\ In (ESleep 300) pre /\ In (ESpanExit None) pre)
       /\ (~ In (ESpanExit None) suf -> forall k x, ~ In (ESetTag k x) suf).
Proof.
  intros Hst Hne.
  destruct (process_message answer fault (PDict md) h) as [h' r] eqn:E. simpl.
  split.
  - intros v Hrun Hv. simpl in Hrun. subst r.
    destruct (process_message_traced_normal answer fault md st h h' v Hst Hne E Hv)
      as [env [now [span_info [-> _]]]].
    unfold traced_path.
    eexists (h ++ [_; _; _; _; _; _])%list, [_; _; _; _; _; _; _].
    rewrite <- !app_assoc. simpl. reflexivity.
  - destruct (process_message_traced_tags answer fault md st h h' r Hst Hne E)
      as [suf [-> Hc]].
    assert (Hpre : forall k x pre post,
               suf = (pre ++ ESetTag k x :: post)%list ->
               In (ESleep 500) pre /\ In (ESleep 300) pre /\ In (ESpanExit None) pre).
    { intros k x pre post ->.
      destruct (tags_after_work_sound false false false pre k x post Hc)
        as ([?|?] & [?|?] & [?|?]); try discriminate; auto. }
    exists suf. split; [reflexivity|]. split; [exact Hpre|].
    intros Hnot k x Hin. apply in_split in Hin as [pre [post ->]].
    destruct (Hpre k x pre post eq_refl) as (_ & _ & Hse).
    apply Hnot, in_or_app. left. exact Hse.
Qed.

(** C8: on the traced path that completes normally, [sentry_sdk.flush]
    is called with a 2-second timeout after the child span has been
    closed (and before the transaction itself is closed, see
    [traced_path]), and the result of [process_message] does not depend on what
    the flush returns (a timeout included). *)
Theorem process_message_flush_nonfatal answer fault :
  (forall md st h v,
     pyget md "sentryTrace" = PStr st -> st <> "" ->
     snd (process_message answer fault (PDict md) h) = Ok v -> v <> PNone ->
     exists pre mid post,
       fst (process_message answer fault (PDict md) h)
       = (pre ++ [ESpanExit None] ++ mid ++ [EFlush 2000] ++ post)%list
       /\ exists now span_info,
            v = PDict [("success", PBool true); ("processedBy", PStr "python-worker");
                       ("processedAt", now); ("span", span_info)])
  /\ (forall m h v1 v2,
        process_message (with_flush answer v1) fault m h
        = process_message (with_flush answer v2) fault m h).
Proof.
  split.
  - intros md st h v Hst Hne Hrun Hv.
    destruct (process_message answer fault (PDict md) h) as [h' r] eqn:E.
    simpl in Hrun |- *. subst r.
    destruct (process_message_traced_normal answer fault md st h h' v Hst Hne E Hv)
      as [env [now [span_info [-> ->]]]].
    unfold traced_path.
    eexists (h ++ [_; _; _; _; _; _; _])%list, [_; _; _; _; _; _; _], [_; _; _].
    split.
    + rewrite <- !app_assoc. simpl. reflexivity.
    + eauto.
  - intros m h v1 v2.
    unfold process_message, log, sleep, with_cm, try_except, bind, call, call_total, ret, raise.
    destruct m; reflexivity.
Qed.

(** ** Witnesses *)

Lemma process_message_no_trace_witness :
  pyget demo_untraced "sentryTrace" = PNone
  /\ exists h' now,
       process_message demo_answer no_fault (PDict demo_untraced) []
       = (h', Ok (PDict [("success", PBool true); ("processedBy", PStr "python-worker");
                         ("processedAt", now); ("warning", PStr "no_trace_context")])).
Proof.
  split; [reflexivity|].
  apply (process_message_no_trace demo_answer no_fault demo_untraced []).
  left. reflexivity.
Defined.

(** The child span of the polled message fails; the iteration still
    ends normally. *)
Lemma handle_message_isolates_faults_witness :
  exists h', poll_iteration demo_answer span_enter_fault "http://localhost:3002" []
             = ((h' ++ [ESleep 1000])%list, Ok tt).
Proof.
  destruct (handle_message_isolates_faults demo_answer span_enter_fault)
    as [_ [_ [_ [_ [Hpoll _]]]]].
  eapply (Hpoll "http://localhost:3002" [] [("messages", PList [demo_message])] [demo_message]);
    reflexivity.
Defined.

Lemma poll_iteration_failed_poll_witness :
  poll_iteration demo_answer queue_down_fault "http://localhost:3002" []
  = ([poll_request "http://localhost:3002"; ELog "Error polling queue"; ESleep 1000], Ok tt).
Proof.
  apply (proj1 (poll_iteration_failed_poll demo_answer queue_down_fault "http://localhost:3002" [])).
  exists connection_error. split; reflexivity.
Defined.

Lemma process_message_tags_normal_witness :
  (exists pre mid,
     fst (process_message demo_answer no_fault demo_message [])
     = (pre ++ [ESleep 300; ESpanExit None; ELog "GPU work completed";
                ESetTag "task.type" (PStr "infer");
                ESetTag "processed.by" (PStr "python-worker")]
            ++ mid ++ [ETxnExit None])%list)
  /\ ~ In (ESetTag "task.type" (PStr "infer"))
         (fst (process_message demo_answer span_enter_fault demo_message [])).
Proof.
  split.
  - apply (proj1 (process_message_tags_normal demo_answer no_fault
                    [("MessageId", PStr "m1"); ("taskType", PStr "infer");
                     ("sentryTrace", PStr "abc-def-1")]
                    "abc-def-1" [] eq_refl ltac:(discriminate)) demo_result);
      [reflexivity | discriminate].
  - destruct (proj2 (process_message_tags_normal demo_answer span_enter_fault
                       [("MessageId", PStr "m1"); ("taskType", PStr "infer");
                        ("sentryTrace", PStr "abc-def-1")]
                       "abc-def-1" [] eq_refl ltac:(discriminate)))
      as [suf [Hs [_ Hno]]].
    assert (Hs' : fst (process_message demo_answer span_enter_fault demo_message []) = suf)
      by exact Hs.
    rewrite Hs'. apply Hno. rewrite <- Hs'. vm_compute.
    intros H; repeat (destruct H as [H|H]; [discriminate H|]); exact H.
Defined.

Lemma process_message_flush_nonfatal_witness :
  exists pre mid post,
    fst (process_message demo_answer no_fault demo_message [])
    = (pre ++ [ESpanExit None] ++ mid ++ [EFlush 2000] ++ post)%list
    /\ exists now span_info,
         demo_result = PDict [("success", PBool true); ("processedBy", PStr "python-worker");
                              ("processedAt", now); ("span", span_info)].
Proof.
  apply (proj1 (process_message_flush_nonfatal demo_answer no_fault)
           [("MessageId", PStr "m1"); ("taskType", PStr "infer"); ("sentryTrace", PStr "abc-def-1")]
           "abc-def-1" [] demo_result);
    [reflexivity | discriminate | reflexivity | discriminate].
Defined.

Lemma before_send_spec_witness :
  is_transaction_event {[ "type" := PStr "transaction"; "sampled" := PBool false ]} = true
  /\ exists ev', before_send {[ "type" := PStr "transaction"; "sampled" := PBool false ]} PNone = Some ev'
                /\ ev' !! "sampled" = Some (PBool true).
Proof.
  split; [reflexivity|].
  apply (proj1 (before_send_spec {[ "type" := PStr "transaction"; "sampled" := PBool false ]} PNone));
    [reflexivity | right; reflexivity].
Defined.

(** ** Counterexamples *)

(** C5: with the queue endpoint unreachable, the wait between the failed
    poll and the next poll is a single sleep of 1000 ms; there is no
    sleep of about 5 seconds. *)
Lemma poll_backoff_counterexample :
  main_loop demo_answer queue_down_fault "http://localhost:3002" 2 []
  = ([poll_request "http://localhost:3002"; ELog "Error polling queue"; ESleep 1000;
      poll_request "http://localhost:3002"; ELog "Error polling queue"; ESleep 1000], Ok tt)
  /\ ~ (exists d, (4000 <= d)%Z /\ In (ESleep d) [ELog "Error polling queue"; ESleep 1000]).
Proof.
  split; [reflexivity|].
  intros [d [Hd Hin]]. simpl in Hin.
  destruct Hin as [Hin|[Hin|[]]]; [discriminate|]. injection Hin as <-. lia.
Qed.

(** C6: when entering the child span raises, the transaction is closed
    (its [__exit__] runs with the fault) and the fault propagates, but
    neither tag has been set. *)
Lemma tags_on_fault_counterexample :
  exists tr,
    process_message demo_answer span_enter_fault demo_message [] = (tr, Err runtime_error)
    /\ In (ETxnExit (Some runtime_error)) tr
    /\ ~ In (ESetTag "task.type" (PStr "infer")) tr
    /\ ~ In (ESetTag "processed.by" (PStr "python-worker")) tr.
Proof.
  exists (fst (process_message demo_answer span_enter_fault demo_message [])).
  split; [reflexivity|].
  vm_compute. split; [do 6 right; left; reflexivity|].
  split; intros H; repeat (destruct H as [H|H]; [discriminate H|]); exact H.
Qed.

(** ** Further properties of the worker *)

(** [before_send] is idempotent: filtering an already filtered event
    changes nothing. *)
Theorem before_send_idempotent (event : pydict) (hint : pyval) :
  forall ev', before_send event hint = Some ev' -> before_send ev' hint = Some ev'.
Proof.
  intros ev' H. unfold before_send, dmem, dget in *.
  destruct (eq_str _ _ || _ || _) eqn:Etr;
    [|injection H as <-; rewrite Etr; reflexivity].
  destruct (negb _ || _) eqn:Es; injection H as <-.
  - rewrite !lookup_insert_ne by discriminate. rewrite Etr.
    rewrite lookup_insert_eq. reflexivity.
  - rewrite Etr, Es. reflexivity.
Qed.


Lemma join_dash_cons (c : ascii) (x : string) (xs : list string) :
  join_dash (String c x :: xs) = String c (join_dash (x :: xs)).
Proof. destruct xs; reflexivity. Qed.

(** Splitting the trace header on ['-'] and joining the pieces with
    ['-'] gives the header back. *)
Theorem split_dash_join (s : string) : join_dash (split_dash s) = s.
Proof.
  induction s as [|c s IH]; [reflexivity|]. simpl.
  destruct (Ascii.eqb_spec c "-"%char) as [->|Hc].
  - pose proof (split_dash_nonempty s) as Hne.
    destruct (split_dash s) as [|p ps]; [congruence|].
    rewrite <- IH. reflexivity.
  - pose proof (split_dash_nonempty s) as Hne.
    destruct (split_dash s) as [|p ps] eqn:E; [congruence|].
    rewrite join_dash_cons, IH. reflexivity.
Qed.

(** Every piece of the split is free of ['-'], and there is one piece more
    than there are separators. *)
Theorem split_dash_pieces (s : string) :
  Forall (fun p => has_dash p = false) (split_dash s)
  /\ length (split_dash s) = S (count_dash s).
Proof.
  induction s as [|c s [IHf IHl]]; [split; [repeat constructor|reflexivity]|]. simpl.
  destruct (Ascii.eqb c "-"%char) eqn:Hc.
  - split; [constructor; [reflexivity|exact IHf]|simpl; rewrite IHl; reflexivity].
  - destruct (split_dash s) as [|p ps]; [simpl in IHl; discriminate|].
    inversion IHf as [|? ? Hp Hps]; subst.
    split.
    + constructor; [simpl; rewrite Hc, Hp; reflexivity|exact Hps].
    + simpl in *. lia.
Qed.

(** A header with more than three segments: the segments after the third
    are ignored. *)
Theorem parse_sentry_trace_extra_segments (T P S rest : string) :
  has_dash T = false -> has_dash P = false -> has_dash S = false ->
  parse_sentry_trace (T ++ "-" ++ P ++ "-" ++ S ++ "-" ++ rest)
  = {| trace_id := Some T; parent_span_id := Some P;
       trace_sampled_flag := Some S; trace_sampled := String.eqb S "1" |}.
Proof.
  intros HT HP HS. unfold parse_sentry_trace.
  change ("-" ++ P ++ "-" ++ S ++ "-" ++ rest)
    with (String "-"%char (P ++ String "-"%char (S ++ String "-"%char rest))).
  rewrite split_dash_app by exact HT.
  rewrite split_dash_app by exact HP.
  rewrite split_dash_app by exact HS.
  pose proof (split_dash_nonempty rest) as Hne.
  destruct (split_dash rest); [congruence|]. reflexivity.
Qed.

(** A header with at most one ['-'] has no sampled flag and is not
    sampled. *)
Theorem parse_sentry_trace_short (s : string) :
  (count_dash s <= 1)%nat ->
  trace_sampled_flag (parse_sentry_trace s) = None
  /\ trace_sampled (parse_sentry_trace s) = false.
Proof.
  intros Hc. unfold parse_sentry_trace, seg. simpl.
  destruct (split_dash_pieces s) as [_ Hl].
  assert (Nat.ltb 2 (length (split_dash s)) = false) as -> by (apply Nat.ltb_ge; lia).
  split; reflexivity.
Qed.

(** A message that is not a dict raises [AttributeError] at its first
    [message.get], before any call. *)
Theorem process_message_not_dict answer fault (message : pyval) h :
  (forall d, message <> PDict d) ->
  process_message answer fault message h = (h, Err (attribute_error "'get'")).
Proof.
  intros Hm. destruct message; try reflexivity. exfalso; eapply Hm; reflexivity.
Qed.

(** A [sentryTrace] that is truthy but not a string (a number, a list, a
    dict, [True]) raises [AttributeError] at [split], before any call. *)
Theorem process_message_trace_not_string answer fault md h :
  truthy (pyget md "sentryTrace") = true ->
  (forall st, pyget md "sentryTrace" <> PStr st) ->
  process_message answer fault (PDict md) h = (h, Err (attribute_error "'split'")).
Proof.
  intros Ht Hs. unfold process_message. rewrite Ht.
  destruct (pyget md "sentryTrace"); try reflexivity.
  exfalso; eapply Hs; reflexivity.
Qed.

(** A message whose [sentryTrace] is falsy ([None], [""], [0], [False],
    an empty list or dict) is processed without any [sentry_sdk] call:
    one warning, a 500 ms sleep and [time.time()]. *)
Theorem process_message_untraced_calls answer fault md h :
  truthy (pyget md "sentryTrace") = false ->
  process_message answer fault (PDict md) h
  = ((h ++ [ELog "WARNING: No sentry trace found in message!"; ESleep 500; ETime])%list,
     Ok (PDict [("success", PBool true); ("processedBy", PStr "python-worker");
                ("processedAt",
                 answer (h ++ [ELog "WARNING: No sentry trace found in message!"; ESleep 500])%list
                        ETime);
                ("warning", PStr "no_trace_context")])).
Proof.
  intros Ht. unfold process_message. rewrite Ht.
  unfold log, sleep, bind, call_total, ret. simpl.
  rewrite <- !app_assoc. reflexivity.
Qed.

(** A computation only appends to the effects performed so far. *)
Definition extends {A} (m : M A) : Prop :=
  forall h, exists suf, fst (m h) = (h ++ suf)%list.

(** A computation whose first effect is [ef]. *)
Definition starts_with {A} (ef : effect) (m : M A) : Prop :=
  forall h, exists rest, fst (m h) = (h ++ ef :: rest)%list.

Lemma ext_ret {A} (a : A) : extends (ret a).
Proof. intros h. exists []. rewrite app_nil_r. reflexivity. Qed.

Lemma ext_raise {A} (e : exn) : extends (@raise A e).
Proof. intros h. exists []. rewrite app_nil_r. reflexivity. Qed.

Lemma ext_call answer fault ef : extends (call answer fault ef).
Proof. intros h. exists [ef]. unfold call. destruct (fault h ef); reflexivity. Qed.

Lemma ext_call_total answer ef : extends (call_total answer ef).
Proof. intros h. exists [ef]. reflexivity. Qed.

Lemma ext_bind {A B} (m : M A) (k : A -> M B) :
  extends m -> (forall a, extends (k a)) -> extends (bind m k).
Proof.
  intros Hm Hk h. unfold bind. destruct (Hm h) as [s1 E1].
  destruct (m h) as [h1 [a|e]]; simpl in E1; subst h1.
  - destruct (Hk a (h ++ s1)%list) as [s2 E2]. rewrite E2, <- app_assoc. eauto.
  - eauto.
Qed.

Lemma ext_try {A} p (m : M A) handler :
  extends m -> (forall e, extends (handler e)) -> extends (try_except p m handler).
Proof.
  intros Hm Hk h. unfold try_except. destruct (Hm h) as [s1 E1].
  destruct (m h) as [h1 [a|e]]; simpl in E1; subst h1; [eauto|].
  destruct (p e); [|eauto].
  destruct (Hk e (h ++ s1)%list) as [s2 E2]. rewrite E2, <- app_assoc. eauto.
Qed.

Lemma ext_with_cm {A} answer fault enter exit (body : M A) :
  extends body -> extends (with_cm answer fault enter exit body).
Proof.
  intros Hb. unfold with_cm. apply ext_bind; [apply ext_call|]. intros _ h.
  destruct (Hb h) as [s1 E1].
  destruct (body h) as [h1 [a|e]]; simpl in E1; subst h1.
  - destruct (ext_call answer fault (exit None) (h ++ s1)%list) as [s2 E2].
    destruct (call answer fault (exit None) (h ++ s1)%list) as [h2 [?|?]];
      simpl in *; subst h2; rewrite <- app_assoc; eauto.
  - destruct (ext_call answer fault (exit (Some e)) (h ++ s1)%list) as [s2 E2].
    destruct (call answer fault (exit (Some e)) (h ++ s1)%list) as [h2 [v|?]];
      simpl in *; subst h2; [destruct (truthy v)|]; rewrite <- app_assoc; eauto.
Qed.

Lemma starts_call answer fault ef : starts_with ef (call answer fault ef).
Proof. intros h. exists []. unfold call. destruct (fault h ef); reflexivity. Qed.

Lemma starts_bind {A B} ef (m : M A) (k : A -> M B) :
  starts_with ef m -> (forall a, extends (k a)) -> starts_with ef (bind m k).
Proof.
  intros Hm Hk h. unfold bind. destruct (Hm h) as [r1 E1].
  destruct (m h) as [h1 [a|e]]; simpl in E1; subst h1; [|eauto].
  destruct (Hk a (h ++ ef :: r1)%list) as [s2 E2]. rewrite E2, <- app_assoc. eauto.
Qed.

Lemma starts_try {A} ef p (m : M A) handler :
  starts_with ef m -> (forall e, extends (handler e)) -> starts_with ef (try_except p m handler).
Proof.
  intros Hm Hk h. unfold try_except. destruct (Hm h) as [r1 E1].
  destruct (m h) as [h1 [a|e]]; simpl in E1; subst h1; [eauto|].
  destruct (p e); [|eauto].
  destruct (Hk e (h ++ ef :: r1)%list) as [s2 E2]. rewrite E2, <- app_assoc. eauto.
Qed.

Ltac solve_extends :=
  repeat (intros;
          match goal with
          | |- extends (bind _ _) => apply ext_bind
          | |- extends (try_except _ _ _) => apply ext_try
          | |- extends (with_cm _ _ _ _ _) => apply ext_with_cm
          | |- extends (call _ _ _) => apply ext_call
          | |- extends (call_total _ _) => apply ext_call_total
          | |- extends (ret _) => apply ext_ret
          | |- extends (raise _) => apply ext_raise
          | |- extends (log _ _) => unfold log
          | |- extends (sleep _ _) => unfold sleep
          | |- extends (match ?x with _ => _ end) => destruct x
          end).

(** On the traced path the first call is [sentry_sdk.continue_trace] with
    the header string verbatim, and with the baggage only when it is
    truthy. *)
Theorem process_message_continue_trace_headers answer fault md st h :
  pyget md "sentryTrace" = PStr st -> st <> "" ->
  exists rest,
    fst (process_message answer fault (PDict md) h)
    = (h ++ EContinueTrace (trace_headers st (pyget md "baggage")) :: rest)%list.
Proof.
  intros Hst Hne. revert h.
  change (starts_with (EContinueTrace (trace_headers st (pyget md "baggage")))
                      (process_message answer fault (PDict md))).
  unfold process_message. rewrite Hst, (truthy_str st Hne).
  apply starts_bind; [|solve_extends].
  apply starts_try; [|solve_extends].
  apply starts_bind; [apply starts_call|solve_extends].
Qed.

(** When [sentry_sdk.continue_trace] raises, the error is logged and the
    same exception is re-raised; no transaction is started. *)
Theorem process_message_continue_trace_fault answer fault md st h e :
  pyget md "sentryTrace" = PStr st -> st <> "" ->
  fault h (EContinueTrace (trace_headers st (pyget md "baggage"))) = Some e ->
  process_message answer fault (PDict md) h
  = ((h ++ [EContinueTrace (trace_headers st (pyget md "baggage"));
            ELog "ERROR in continue_trace"])%list, Err e).
Proof.
  intros Hst Hne Hf. unfold process_message. rewrite Hst, (truthy_str st Hne).
  unfold trace_headers in *.
  unfold log, try_except, bind, call, call_total, ret, raise.
  rewrite Hf. simpl. rewrite <- app_assoc. reflexivity.
Qed.

(** On the traced path, a call that returns gives either the success
    dict or [None]. [None] arises only when the transaction's [__exit__]
    receives a fault and returns a true value, suppressing it, so that
    the function falls off its end: the run then ends with that
    [__exit__] call. *)
Theorem process_message_traced_results answer fault md st h v :
  pyget md "sentryTrace" = PStr st -> st <> "" ->
  snd (process_message answer fault (PDict md) h) = Ok v ->
  (v = PNone
   /\ exists pre e,
        fst (process_message answer fault (PDict md) h)
        = (pre ++ [ETxnExit (Some e)])%list
        /\ fault pre (ETxnExit (Some e)) = None
        /\ truthy (answer pre (ETxnExit (Some e))) = true)
  \/ exists now span_info,
       v = PDict [("success", PBool true); ("processedBy", PStr "python-worker");
                  ("processedAt", now); ("span", span_info)].
Proof.
  intros Hst Hne Hrun.
  destruct (process_message answer fault (PDict md) h) as [h' r] eqn:E.
  simpl in Hrun. subst r. simpl.
  assert (Hd : v = PNone \/ v <> PNone) by (destruct v; [left|..]; (reflexivity || (right; discriminate))).
  destruct Hd as [->|Hv].
  - left. split; [reflexivity|].
    exact (process_message_traced_none answer fault md st h h' Hst Hne E).
  - right.
    destruct (process_message_traced_normal answer fault md st h h' v Hst Hne E Hv)
      as [env [now [span_info [_ ->]]]].
    eauto.
Qed.

(** When [process_message] returns, the handler only logs: nothing is
    sent to [capture_exception]. *)
Theorem handle_message_success answer fault m h h' v :
  process_message answer fault m h = (h', Ok v) ->
  handle_message answer fault m h = ((h' ++ [ELog "Message processed"])%list, Ok tt).
Proof.
  intros E. unfold handle_message, log, try_except, bind, call_total, ret.
  rewrite E. reflexivity.
Qed.

(** A 200 response whose JSON has no ["messages"] key (or an empty list
    under it) processes nothing: the iteration reads the body and sleeps
    one second. *)
Theorem poll_iteration_no_messages answer fault url h d :
  fault h (poll_request url) = None ->
  answer h (poll_request url) = PInt 200 ->
  fault (h ++ [poll_request url])%list EJson = None ->
  answer (h ++ [poll_request url])%list EJson = PDict d ->
  pyget_default d "messages" (PList []) = PList [] ->
  poll_iteration answer fault url h
  = ((h ++ [poll_request url; EJson; ESleep 1000])%list, Ok tt).
Proof.
  intros H1 H2 H3 H4 H5.
  unfold poll_iteration, poll_body, log, sleep, try_except, bind, call, call_total, ret.
  rewrite H1, H2. simpl. rewrite H3, H4, H5. simpl.
  rewrite <- !app_assoc. reflexivity.
Qed.

(** A 200 response whose JSON is not an object makes [data.get] raise
    [AttributeError], which is not a [RequestException]: it escapes the
    iteration and ends [main]. *)
Theorem poll_iteration_body_not_object answer fault url h data n :
  fault h (poll_request url) = None ->
  answer h (poll_request url) = PInt 200 ->
  fault (h ++ [poll_request url])%list EJson = None ->
  answer (h ++ [poll_request url])%list EJson = data ->
  (forall d, data <> PDict d) ->
  poll_iteration answer fault url h
  = ((h ++ [poll_request url; EJson])%list, Err (attribute_error "'get'"))
  /\ main_loop answer fault url (S n) h
     = ((h ++ [poll_request url; EJson])%list, Err (attribute_error "'get'")).
Proof.
  intros H1 H2 H3 H4 H5.
  assert (Hp : poll_iteration answer fault url h
               = ((h ++ [poll_request url; EJson])%list, Err (attribute_error "'get'"))).
  { unfold poll_iteration, poll_body, log, sleep, try_except, bind, call, call_total, ret.
    rewrite H1, H2. simpl. rewrite H3, H4.
    destruct data; try (exfalso; eapply H5; reflexivity);
      simpl; rewrite <- !app_assoc; reflexivity. }
  split; [exact Hp|]. simpl. unfold bind at 1. rewrite Hp. reflexivity.
Qed.

(** The outcome of an iteration from the outcome of its [try] body: a
    body that completes is followed by the one-second sleep; a
    [RequestException] is logged with "Error polling queue" and absorbed,
    then the sleep follows; any other exception escapes the iteration
    unchanged, without the sleep. *)
Theorem poll_iteration_outcome answer fault url h :
  (forall hb, poll_body answer fault url h = (hb, Ok tt) ->
     poll_iteration answer fault url h = ((hb ++ [ESleep 1000])%list, Ok tt))
  /\ (forall hb e, poll_body answer fault url h = (hb, Err e) -> exc_request e = true ->
        poll_iteration answer fault url h
        = ((hb ++ [ELog "Error polling queue"; ESleep 1000])%list, Ok tt))
  /\ (forall hb e, poll_body answer fault url h = (hb, Err e) -> exc_request e = false ->
        poll_iteration answer fault url h = (hb, Err e)).
Proof.
  unfold poll_iteration, try_except, bind, log, sleep, call_total, ret, is_RequestException.
  split; [|split].
  - intros hb Hb. rewrite Hb. reflexivity.
  - intros hb e Hb Hr. rewrite Hb. simpl. rewrite Hr. simpl.
    unfold bind. simpl. rewrite <- app_assoc. reflexivity.
  - intros hb e Hb Hr. rewrite Hb. simpl. rewrite Hr. reflexivity.
Qed.

(** ** Witnesses of the further properties *)

Lemma before_send_idempotent_witness :
  before_send {[ "spans" := PList [] ]} PNone
  = Some (<["sampled" := PBool true]> {[ "spans" := PList [] ]})
  /\ before_send (<["sampled" := PBool true]> {[ "spans" := PList [] ]}) PNone
     = Some (<["sampled" := PBool true]> {[ "spans" := PList [] ]}).
Proof.
  split; [reflexivity|].
  apply (before_send_idempotent {[ "spans" := PList [] ]} PNone). reflexivity.
Defined.


Lemma parse_sentry_trace_extra_segments_witness :
  parse_sentry_trace ("abc" ++ "-" ++ "def" ++ "-" ++ "1" ++ "-" ++ "x")
  = {| trace_id := Some "abc"; parent_span_id := Some "def";
       trace_sampled_flag := Some "1"; trace_sampled := String.eqb "1" "1" |}.
Proof. apply parse_sentry_trace_extra_segments; reflexivity. Defined.

Lemma parse_sentry_trace_short_witness :
  (count_dash "abc-def" <= 1)%nat
  /\ trace_sampled_flag (parse_sentry_trace "abc-def") = None
  /\ trace_sampled (parse_sentry_trace "abc-def") = false.
Proof.
  split; [simpl; lia|]. apply parse_sentry_trace_short. simpl. lia.
Defined.

Lemma process_message_not_dict_witness :
  process_message demo_answer no_fault (PList []) [] = ([], Err (attribute_error "'get'")).
Proof. apply process_message_not_dict. intros d; discriminate. Defined.

Lemma process_message_trace_not_string_witness :
  process_message demo_answer no_fault (PDict [("sentryTrace", PInt 5)]) []
  = ([], Err (attribute_error "'split'")).
Proof.
  apply process_message_trace_not_string; [reflexivity|]. intros st; discriminate.
Defined.

Lemma process_message_untraced_calls_witness :
  fst (process_message demo_answer no_fault (PDict [("sentryTrace", PInt 0)]) [])
  = [ELog "WARNING: No sentry trace found in message!"; ESleep 500; ETime].
Proof.
  rewrite (process_message_untraced_calls demo_answer no_fault [("sentryTrace", PInt 0)] []);
    reflexivity.
Defined.

Lemma process_message_continue_trace_headers_witness :
  exists rest,
    fst (process_message demo_answer no_fault (PDict baggage_message) [])
    = ([] ++ EContinueTrace [("sentry-trace", PStr "abc-def-1"); ("baggage", PStr "sentry-env=dev")]
          :: rest)%list.
Proof.
  apply (process_message_continue_trace_headers demo_answer no_fault baggage_message "abc-def-1" []);
    [reflexivity | discriminate].
Defined.

Lemma process_message_continue_trace_fault_witness :
  process_message demo_answer continue_trace_fault (PDict baggage_message) []
  = ([EContinueTrace [("sentry-trace", PStr "abc-def-1"); ("baggage", PStr "sentry-env=dev")];
      ELog "ERROR in continue_trace"], Err runtime_error).
Proof.
  apply (process_message_continue_trace_fault demo_answer continue_trace_fault baggage_message
           "abc-def-1" [] runtime_error); [reflexivity | discriminate | reflexivity].
Defined.

(** The child span fails and the transaction's [__exit__] suppresses the
    fault: [process_message] returns [None]. *)
Lemma process_message_traced_results_witness :
  snd (process_message suppressing_answer span_enter_fault demo_message []) = Ok PNone
  /\ ((PNone = PNone
       /\ exists pre e,
            fst (process_message suppressing_answer span_enter_fault demo_message [])
            = (pre ++ [ETxnExit (Some e)])%list
            /\ span_enter_fault pre (ETxnExit (Some e)) = None
            /\ truthy (suppressing_answer pre (ETxnExit (Some e))) = true)
      \/ exists now span_info,
           PNone = PDict [("success", PBool true); ("processedBy", PStr "python-worker");
                          ("processedAt", now); ("span", span_info)]).
Proof.
  split; [reflexivity|].
  apply (process_message_traced_results suppressing_answer span_enter_fault
           [("MessageId", PStr "m1"); ("taskType", PStr "infer"); ("sentryTrace", PStr "abc-def-1")]
           "abc-def-1" [] PNone); [reflexivity | discriminate | reflexivity].
Defined.

Lemma handle_message_success_witness :
  handle_message demo_answer no_fault demo_message []
  = ((fst (process_message demo_answer no_fault demo_message []) ++ [ELog "Message processed"])%list,
     Ok tt).
Proof.
  apply (handle_message_success demo_answer no_fault demo_message []
           (fst (process_message demo_answer no_fault demo_message [])) demo_result).
  reflexivity.
Defined.

Lemma poll_iteration_no_messages_witness :
  poll_iteration empty_queue_answer no_fault "http://localhost:3002" []
  = ([poll_request "http://localhost:3002"; EJson; ESleep 1000], Ok tt).
Proof.
  apply (poll_iteration_no_messages empty_queue_answer no_fault "http://localhost:3002" [] []);
    reflexivity.
Defined.

Lemma poll_iteration_body_not_object_witness :
  main_loop array_body_answer no_fault "http://localhost:3002" 3 []
  = ([poll_request "http://localhost:3002"; EJson], Err (attribute_error "'get'")).
Proof.
  apply (poll_iteration_body_not_object array_body_answer no_fault "http://localhost:3002" []
           (PList []) 2); [reflexivity | reflexivity | reflexivity | reflexivity | discriminate].
Defined.

Lemma poll_iteration_outcome_witness :
  poll_body demo_answer queue_down_fault "http://localhost:3002" []
  = ([poll_request "http://localhost:3002"], Err connection_error)
  /\ poll_iteration demo_answer queue_down_fault "http://localhost:3002" []
     = ([poll_request "http://localhost:3002"; ELog "Error polling queue"; ESleep 1000], Ok tt).
Proof.
  split; [reflexivity|].
  apply (proj1 (proj2 (poll_iteration_outcome demo_answer queue_down_fault "http://localhost:3002" []))
           [poll_request "http://localhost:3002"] connection_error); reflexivity.
Defined.
